(** * The pseudopotential dojo of pymatgen.io.abinitio.pseudo_dojo

    A shallow embedding of [Dojo], [DojoMaster] and its two subclasses
    [HintsMaster] and [DeltaFactorMaster], followed by the properties of
    the level gating, of the report merge and of the error paths. *)

From Stdlib Require Import ZArith Ascii String List Permutation Sorted DecimalString.
From stdpp Require Import base option gmap strings list fin_maps.

#[local] Set Warnings "-clear-no-such-hyp".

Local Open Scope Z_scope.
Local Open Scope string_scope.

(** ** Python data *)

(** JSON-like values: what the external works return and what is dumped
    to disk.  Cutoff energies are carried as integers. *)
#[warnings="-register-all"]
Inductive pyval : Type :=
  | PyNone
  | PyBool (b : bool)
  | PyInt (z : Z)
  | PyStr (s : string)
  | PyDict (d : gmap string pyval).

(** [str(n)] for an integer. *)
Definition str_Z (z : Z) : string := NilZero.string_of_int (Z.to_int z).

(** The exceptions the module raises or runs into. *)
Inductive exn : Type :=
  | NameError (name : string)
  | AttributeError (attr : string)
  | KeyError (msg : string)
  | TypeError (msg : string)
  | ValueError (msg : string)
  | IOError (path : string)
  | DojoError (msg : string).

Inductive result (A : Type) : Type :=
  | Ok (a : A)
  | Raise (e : exn).
Arguments Ok {A} a.
Arguments Raise {A} e.

(** ** External collaborators *)

(** Modelled from the spec: RunMode is missing from the sources; it is an
    execution configuration (mode: sequential or parallel; a batching
    parameter read with [get_chunk_size]). *)
Inductive mode : Type := sequential | parallel.
Record RunMode : Type := mkRunMode { rm_mode : mode; get_chunk_size : option Z }.

(** Modelled from the spec: Pseudo is missing from the sources; it has an
    identity (name) and a nullable dojo level.  Its persisted report lives
    in the world, keyed by the name, since the object is shared between
    the coordinator and every master it is bound to. *)
Record Pseudo : Type := mkPseudo { name : string; pseudo_dojo_level : option Z }.

(** The energy cutoffs a convergence work is asked to scan. *)
Inductive ecuts : Type :=
  | ESlice (start : Z) (stop : option Z) (step : Z)
  | ERange (l : list Z).

(** The arguments a work unit was built with. *)
Inductive WorkSpec : Type :=
  | ConvergenceWork (workdir : string) (pseudo : Pseudo) (ecut : ecuts)
                    (runmode : RunMode) (atols_mev : list string)
  | DeltaWork (workdir : string) (runmode : RunMode) (pseudo : Pseudo) (kppa : Z).

(** Calls made on the external factories and works, in program order. *)
Inductive WorkEvent : Type :=
  | WorkForPseudo (w : WorkSpec)
  | WorkStart (w : WorkSpec) (chunk_size : option Z)
  | WorkWait (w : WorkSpec)
  | WorkMove (w : WorkSpec) (dest : string).

(** The world the module acts on: the JSON files it dumps, the persisted
    DOJO_REPORT of every pseudopotential, the standard output, the calls
    on the external works; and what that world answers: the
    pseudopotential files that can be parsed and the results of a work. *)
Record World : Type := mkWorld {
  fs : gmap string pyval;
  dojo_reports : gmap string (gmap string pyval);
  stdout : list string;
  works : list WorkEvent;
  pseudo_files : gmap string Pseudo;
  work_results : WorkSpec -> gmap string pyval
}.

(** ** Computations: state passing with exceptions *)

Definition M (A : Type) : Type := World -> result A * World.

Definition ret {A} (a : A) : M A := fun w => (Ok a, w).
Definition raise {A} (e : exn) : M A := fun w => (Raise e, w).
Definition bind {A B} (m : M A) (f : A -> M B) : M B :=
  fun w => match m w with
           | (Ok a, w') => f a w'
           | (Raise e, w') => (Raise e, w')
           end.
Definition lift {A} (r : result A) : M A := fun w => (r, w).

#[global] Instance M_ret : MRet M := @ret.
#[global] Instance M_bind : MBind M := fun A B f m => bind m f.

#[global] Instance result_ret : MRet result := @Ok.
#[global] Instance result_bind : MBind result :=
  fun A B f r => match r with Ok a => f a | Raise e => Raise e end.

Definition set_fs (f : gmap string pyval) (w : World) : World :=
  mkWorld f (dojo_reports w) (stdout w) (works w) (pseudo_files w) (work_results w).
Definition set_dojo_reports (r : gmap string (gmap string pyval)) (w : World) : World :=
  mkWorld (fs w) r (stdout w) (works w) (pseudo_files w) (work_results w).
Definition set_stdout (o : list string) (w : World) : World :=
  mkWorld (fs w) (dojo_reports w) o (works w) (pseudo_files w) (work_results w).
Definition set_works (e : list WorkEvent) (w : World) : World :=
  mkWorld (fs w) (dojo_reports w) (stdout w) e (pseudo_files w) (work_results w).

Definition print (line : string) : M unit :=
  fun w => (Ok tt, set_stdout (stdout w ++ [line]) w).

(** ** Masters *)

(** The attributes [DojoMaster.__init__] sets, and [pseudo], which only
    [accept_pseudo] sets: [None] is an instance without that attribute. *)
Record Instance : Type := mkInstance {
  runmode : RunMode;
  reports : list pyval;
  errors : list pyval;
  pseudo : option Pseudo
}.

(** A subclass of DojoMaster: its class attributes and the two abstract
    methods it overrides. *)
Record MasterClass : Type := mkMasterClass {
  cls_name : string;
  dojo_level : Z;
  dojo_key : string;
  challenge : Instance -> string -> M (gmap string pyval);
  make_report : Instance -> gmap string pyval -> M (gmap string pyval * bool)
}.

Record Master : Type := mkMaster { master_class : MasterClass; self : Instance }.

(** Name resolution: [scope] lists the bindings visible at the use. *)
Fixpoint lookup_name {A} (scope : list (string * A)) (x : string) : result A :=
  match scope with
  | [] => Raise (NameError x)
  | (y, v) :: rest => if String.eqb x y then Ok v else lookup_name rest x
  end.

(** [DojoMaster.__init__]: the module never imports RunMode, so the
    default branch cannot resolve the name. *)
Definition DojoMaster_init (cls : MasterClass) (rm : option RunMode) : M Master :=
  rm' ← match rm with
         | Some r => ret r
         | None => lift (lookup_name [] "RunMode")
         end;
  ret (mkMaster cls (mkInstance rm' [] [] None)).

(** Modelled from the spec: [Pseudo.from_filename] is missing from the
    sources; it resolves a path to a pseudopotential entity. *)
Definition Pseudo_from_filename (path : string) : M Pseudo :=
  fun w => match pseudo_files w !! path with
           | Some p => (Ok p, w)
           | None => (Raise (IOError path), w)
           end.

(** [if not isinstance(pseudo, Pseudo): pseudo = Pseudo.from_filename(pseudo)] *)
Definition as_pseudo (arg : string + Pseudo) : M Pseudo :=
  match arg with
  | inl path => Pseudo_from_filename path
  | inr p => ret p
  end.

Definition set_pseudo (m : Master) (p : Pseudo) : Master :=
  mkMaster (master_class m)
           (mkInstance (runmode (self m)) (reports (self m)) (errors (self m)) (Some p)).

(** [DojoMaster.accept_pseudo] *)
Definition accept_pseudo (m : Master) (arg : string + Pseudo) : M (bool * Master) :=
  p ← as_pseudo arg;
  let level := dojo_level (master_class m) in
  let ready := match pseudo_dojo_level p with
               | None => Z.eqb level 0
               | Some l => Z.eqb l (level - 1)
               end in
  if negb ready then
    print (cls_name (master_class m) +:+ ": Sorry, " +:+ name p +:+ "-san, I cannot train you") ;;
    ret (ready, m)
  else
    print (cls_name (master_class m) +:+ ": Welcome " +:+ name p +:+ "-san, I'm your level-"
             +:+ str_Z level +:+ " trainer") ;;
    ret (ready, set_pseudo m p).

(** [self.pseudo]: the attribute exists only after a successful
    [accept_pseudo]. *)
Definition self_pseudo (inst : Instance) : M Pseudo :=
  match pseudo inst with
  | Some p => ret p
  | None => raise (AttributeError "pseudo")
  end.

(** ** Paths and files *)

Fixpoint ends_with_sep (s : string) : bool :=
  match s with
  | EmptyString => false
  | String c EmptyString => Ascii.eqb c "/"%char
  | String _ rest => ends_with_sep rest
  end.

Definition starts_with_sep (s : string) : bool :=
  match s with
  | String c _ => Ascii.eqb c "/"%char
  | EmptyString => false
  end.

(** [os.path.join(a, b)] on POSIX. *)
Definition os_path_join (a b : string) : string :=
  if starts_with_sep b then b
  else if orb (String.eqb a "") (ends_with_sep a) then a +:+ b
  else a +:+ "/" +:+ b.

(** A path lies inside directory [dir]. *)
Definition inside (dir path : string) : bool :=
  String.prefix (if ends_with_sep dir then dir else dir +:+ "/") path.

(** Modelled from the spec: [json_pretty_dump] is missing from the
    sources; it writes a pretty-printed JSON artifact at the path. *)
Definition json_pretty_dump (v : pyval) (path : string) : M unit :=
  fun w => (Ok tt, set_fs (<[path := v]> (fs w)) w).

(** [os.path.exists(dir)], over the files the world tracks. *)
Definition os_path_exists (dir : string) : M bool :=
  fun w => (Ok (existsb (fun kv => orb (String.eqb (fst kv) dir) (inside dir (fst kv)))
                        (map_to_list (fs w))), w).

(** [shutil.rmtree(dir)] *)
Definition shutil_rmtree (dir : string) : M unit :=
  fun w => (Ok tt, set_fs (filter (fun kv => inside dir (fst kv) = false) (fs w)) w).

(** Modelled from the spec: the report persistence of Pseudo is missing
    from the sources; [read_dojo_report] returns the persisted mapping
    and [write_dojo_report] replaces it. *)
Definition Pseudo_read_dojo_report (p : Pseudo) : M (gmap string pyval) :=
  fun w => (Ok (default ∅ (dojo_reports w !! name p)), w).

Definition Pseudo_write_dojo_report (p : Pseudo) (report : gmap string pyval) : M unit :=
  fun w => (Ok tt, set_dojo_reports (<[name p := report]> (dojo_reports w)) w).

(** ** DojoMaster.write_dojo_report *)

(** The loop [for okey in old_report]: the test reads the name
    [overwrite], while the flags in scope are [overwrite_data] and
    [ignore_errors]; the message of the [raise] uses the conversion [%k],
    which no format accepts. *)
Fixpoint check_old_keys (okeys : list string) (report : gmap string pyval)
         (overwrite_data ignore_errors : bool) : result unit :=
  match okeys with
  | [] => Ok tt
  | okey :: rest =>
      conflict ← (if bool_decide (is_Some (report !! okey)) then
                    overwrite ← lookup_name [("overwrite_data", overwrite_data);
                                             ("ignore_errors", ignore_errors)] "overwrite";
                    Ok (negb overwrite)
                  else Ok false);
      if (conflict : bool) then
        Raise (ValueError "unsupported format character 'k' (0x6b) at index 1")
      else check_old_keys rest report overwrite_data ignore_errors
  end.

Definition write_dojo_report (m : Master) (report : gmap string pyval)
           (overwrite_data ignore_errors : bool) : M unit :=
  p ← self_pseudo (self m);
  old_report ← Pseudo_read_dojo_report p;
  lift (check_old_keys (map_to_list old_report).*1 report
                       overwrite_data ignore_errors) ;;
  let old_report := report ∪ old_report in
  Pseudo_write_dojo_report p old_report.

(** ** DojoMaster.start_training *)

Definition str_bool (b : bool) : string := if b then "True" else "False".

Definition start_training (m : Master) (workdir : string) : M unit :=
  results ← challenge (master_class m) (self m) workdir;
  '(report, isok) ← make_report (master_class m) (self m) results;
  json_pretty_dump (PyDict results) (os_path_join workdir "report.json") ;;
  if (isok : bool) then write_dojo_report m report false false
  else raise (DojoError ("isok: " +:+ str_bool isok)).

(** ** External works *)

(** Modelled from the spec: WorkFactory and Work are missing from the
    sources.  [work_for_pseudo] builds a work for the directory it is
    given; [start], [wait] and [move] act on the outside, [get_results]
    returns the mapping the calculation produced and [path_in_workdir]
    names a file inside the work's directory. *)
Definition log_work (e : WorkEvent) : M unit :=
  fun w => (Ok tt, set_works (works w ++ [e]) w).

Definition work_for_pseudo (spec : WorkSpec) : M WorkSpec :=
  log_work (WorkForPseudo spec) ;; ret spec.

Definition work_workdir (w : WorkSpec) : string :=
  match w with
  | ConvergenceWork d _ _ _ _ => d
  | DeltaWork d _ _ _ => d
  end.

Definition work_start (w : WorkSpec) (chunk_size : option Z) : M unit :=
  log_work (WorkStart w chunk_size).
Definition work_wait (w : WorkSpec) : M unit := log_work (WorkWait w).
Definition work_move (w : WorkSpec) (dest : string) : M unit := log_work (WorkMove w dest).
Definition work_get_results (w : WorkSpec) : M (gmap string pyval) :=
  fun st => (Ok (work_results st w), st).
Definition path_in_workdir (w : WorkSpec) (file : string) : string :=
  os_path_join (work_workdir w) file.

(** [d[key]] *)
Definition getitem (d : gmap string pyval) (key : string) : result pyval :=
  match d !! key with
  | Some v => Ok v
  | None => Raise (KeyError key)
  end.

(** [wres[key]["ecut"]] as a number. *)
Definition ecut_of (wres : gmap string pyval) (key : string) : result Z :=
  v ← getitem wres key;
  match v with
  | PyDict d =>
      e ← getitem d "ecut";
      match e with
      | PyInt z => Ok z
      | _ => Raise (TypeError "unsupported operand type(s)")
      end
  | _ => Raise (TypeError "object is not subscriptable")
  end.

(** [list(np.arange(start, stop, step))] for a positive step. *)
Definition arange (start stop step : Z) : list Z :=
  map (fun i => start + Z.of_nat i * step)
      (seq 0 (Z.to_nat ((stop - start + step - 1) / step))).

(** ** HintsMaster *)

Module HintsMaster.

Definition dojo_level : Z := 0.
Definition dojo_key : string := "hints".

Definition challenge (self : Instance) (workdir : string) : M (gmap string pyval) :=
  pseudo ← self_pseudo self;
  let atols_mev := ["10"; "1"; "0.1"] in
  let workdir := os_path_join workdir ("LEVEL_" +:+ str_Z dojo_level) in
  let estep := 10 in
  let eslice := ESlice 5 None estep in
  w ← work_for_pseudo (ConvergenceWork workdir pseudo eslice (runmode self) atols_mev);
  there ← os_path_exists (work_workdir w);
  (if (there : bool) then shutil_rmtree (work_workdir w) else ret tt) ;;
  print ("Converging " +:+ name pseudo +:+ " in iterative mode with eslice "
           +:+ "slice(5, None, 10)") ;;
  work_start w None ;;
  work_wait w ;;
  wres ← work_get_results w;
  work_move w "ITERATIVE" ;;
  low ← lift (ecut_of wres "low");
  high ← lift (ecut_of wres "high");
  let estart := Z.max (low - estep) 5 in
  let estop := high + estep in
  let estep := 1 in
  let erange := arange estart estop estep in
  w ← work_for_pseudo (ConvergenceWork workdir pseudo (ERange erange) (runmode self) atols_mev);
  print ("Finding optimal values for ecut in the interval " +:+ str_Z estart +:+ ".0 "
           +:+ str_Z estop +:+ ".0 " +:+ str_Z estep) ;;
  work_start w (get_chunk_size (runmode self)) ;;
  work_wait w ;;
  wres ← work_get_results w;
  json_pretty_dump (PyDict wres) (path_in_workdir w "dojo_results.json") ;;
  ret wres.

(** The loop [for key in ["low", "normal", "high"]] filling [d]. *)
Fixpoint collect (keys : list string) (results d : gmap string pyval)
  : result (gmap string pyval) :=
  match keys with
  | [] => Ok d
  | key :: rest =>
      match results !! key with
      | Some v => collect rest results (<[key := v]> d)
      | None => Raise (KeyError (key +:+ " is missing in input results"))
      end
  end.

Definition make_report (self : Instance) (results : gmap string pyval)
  : M (gmap string pyval * bool) :=
  d ← lift (collect ["low"; "normal"; "high"] results ∅);
  let isok := true in
  ret ({[ dojo_key := PyDict d ]}, isok).

Definition cls : MasterClass :=
  mkMasterClass "HintsMaster" dojo_level dojo_key challenge make_report.

End HintsMaster.

(** ** DeltaFactorMaster *)

Module DeltaFactorMaster.

Definition dojo_level : Z := 1.
Definition dojo_key : string := "delta_factor".

(** The second argument of [work_for_pseudo] is the bare name
    [runmode]; the names bound in the body are [self], [workdir],
    [kwargs], [pseudo] and [factory], and the module binds none. *)
Definition challenge (self : Instance) (workdir : string) : M (gmap string pyval) :=
  pseudo ← self_pseudo self;
  let workdir := os_path_join workdir ("LEVEL_" +:+ str_Z dojo_level) in
  rm ← lift (lookup_name [] "runmode");
  w ← work_for_pseudo (DeltaWork workdir rm pseudo 1);
  work_start w (get_chunk_size (runmode self)) ;;
  work_wait w ;;
  wres ← work_get_results w;
  json_pretty_dump (PyDict wres) (path_in_workdir w "dojo_results.json") ;;
  ret wres.

Definition make_report (self : Instance) (results : gmap string pyval)
  : M (gmap string pyval * bool) :=
  let isok := true in
  let d : gmap string pyval := ∅ in
  ret ({[ dojo_key := PyDict d ]}, isok).

Definition cls : MasterClass :=
  mkMasterClass "DeltaFactorMaster" dojo_level dojo_key challenge make_report.

End DeltaFactorMaster.

(** ** Dojo *)

(** [classes.sort(key = lambda cls : cls.dojo_level)]: a stable sort. *)
Fixpoint insert_by_level (c : MasterClass) (l : list MasterClass) : list MasterClass :=
  match l with
  | [] => [c]
  | d :: rest =>
      if Z.leb (dojo_level c) (dojo_level d) then c :: d :: rest
      else d :: insert_by_level c rest
  end.

Fixpoint sort_by_level (l : list MasterClass) : list MasterClass :=
  match l with
  | [] => []
  | c :: rest => insert_by_level c (sort_by_level rest)
  end.

(** [l[:k]] *)
Definition slice_to {A} (l : list A) (k : Z) : list A :=
  if Z.ltb k 0 then take (Z.to_nat (Z.of_nat (length l) + k)) l
  else take (Z.to_nat k) l.

Record Dojo : Type := mkDojo { master_classes : list MasterClass }.

(** [Dojo.__init__]; [subclasses] is [DojoMaster.__subclasses__()]. *)
Definition Dojo_init (subclasses : list MasterClass) (max_level : option Z) : result Dojo :=
  let classes := sort_by_level subclasses in
  match max_level with
  | None => Ok (mkDojo classes)
  | Some max_level => Ok (mkDojo (slice_to classes (max_level + 1)))
  end.

(** [DojoMaster.subclass_from_dojo_level]: a static method, whose
    [raise] reads [self]. *)
Definition subclass_from_dojo_level (subclasses : list MasterClass) (level : Z)
  : result MasterClass :=
  let classes := List.filter (fun c => Z.eqb (dojo_level c) level) subclasses in
  match classes with
  | [c] => Ok c
  | _ =>
      Error ← lookup_name [] "self";
      Raise (Error ("Found " +:+ str_Z (Z.of_nat (length classes))
                       +:+ " masters with dojo_level " +:+ str_Z level))
  end.

(** The loop [for master in masters] of [challenge_pseudo]; it returns
    the instances as the loop leaves them. *)
Fixpoint train_all (p : Pseudo) (workdir : string) (masters : list Master)
  : M (list Master) :=
  match masters with
  | [] => ret []
  | master :: rest =>
      '(ready, master) ← accept_pseudo master (inr p);
      (if (ready : bool) then start_training master workdir else ret tt) ;;
      rest ← train_all p workdir rest;
      ret (master :: rest)
  end.

(** [[cls(runmode=runmode) for cls in self.master_classes]] *)
Fixpoint build_masters (classes : list MasterClass) (rm : option RunMode)
  : M (list Master) :=
  match classes with
  | [] => ret []
  | c :: rest =>
      master ← DojoMaster_init c rm;
      rest ← build_masters rest rm;
      ret (master :: rest)
  end.

(** [Dojo.challenge_pseudo] *)
Definition challenge_pseudo (d : Dojo) (arg : string + Pseudo) (rm : option RunMode)
  : M (list Master) :=
  p ← as_pseudo arg;
  let workdir := "DOJO_" +:+ name p in
  masters ← build_masters (master_classes d) rm;
  train_all p workdir masters.

(** ** Reading the definitions *)

(** The readiness test of [accept_pseudo], on its own. *)
Definition ready_for (level : Z) (p : Pseudo) : bool :=
  match pseudo_dojo_level p with
  | None => Z.eqb level 0
  | Some l => Z.eqb l (level - 1)
  end.

(** An instance as [DojoMaster.__init__] leaves it. *)
Definition fresh (cls : MasterClass) (rm : RunMode) : Master :=
  mkMaster cls (mkInstance rm [] [] None).

(** The persisted report of a pseudopotential. *)
Definition persisted (w : World) (p : Pseudo) : gmap string pyval :=
  default ∅ (dojo_reports w !! name p).

(** One level of a run, as the specification words it: nothing more
    happens once a level has raised; otherwise the validator is asked
    whether it accepts the pseudopotential, trains it if so, and is
    skipped if not. *)
Definition level_step (p : Pseudo) (workdir : string)
           (acc : result (list Master) * World) (m : Master)
  : result (list Master) * World :=
  match acc with
  | (Raise e, w) => (Raise e, w)
  | (Ok done, w) =>
      match accept_pseudo m (inr p) w with
      | (Ok (true, m'), w1) =>
          match start_training m' workdir w1 with
          | (Ok _, w2) => (Ok (done ++ [m'])%list, w2)
          | (Raise e, w2) => (Raise e, w2)
          end
      | (Ok (false, m'), w1) => (Ok (done ++ [m'])%list, w1)
      | (Raise e, w1) => (Raise e, w1)
      end
  end.

Definition ascending (l : list MasterClass) : Prop :=
  Sorted (fun c d => dojo_level c <= dojo_level d) l.

(** The entries of [results] under the given keys. *)
Definition restrict (keys : list string) (results : gmap string pyval) : gmap string pyval :=
  filter (fun kv => kv.1 ∈ keys) results.

(** The variants declaring a level, in the order of the list. *)
Definition at_level (level : Z) (l : list MasterClass) : list MasterClass :=
  List.filter (fun c => Z.eqb (dojo_level c) level) l.

(** What [os.path.join] puts between a directory and a relative name. *)
Definition sep_after (a : string) : string :=
  if orb (String.eqb a "") (ends_with_sep a) then "" else "/".

(** ** Sample data *)

Module Sample.

Definition rm : RunMode := mkRunMode sequential (Some 2).
Definition si : Pseudo := mkPseudo "Si" None.
Definition si0 : Pseudo := mkPseudo "Si" (Some 0).

Definition wres : gmap string pyval :=
  {[ "low" := PyDict {[ "ecut" := PyInt 20 ]};
     "normal" := PyDict {[ "ecut" := PyInt 30 ]};
     "high" := PyDict {[ "ecut" := PyInt 40 ]} ]}.

Definition hints : gmap string pyval := {[ "hints" := PyDict wres ]}.
Definition delta : gmap string pyval := {[ "delta_factor" := PyDict ∅ ]}.

(** Nothing on disk, every work returning [wres]. *)
Definition empty : World := mkWorld ∅ ∅ [] [] ∅ (fun _ => wres).

(** The same, with the hints of Si already persisted. *)
Definition trained : World := set_dojo_reports {[ "Si" := hints ]} empty.

Definition bound (cls : MasterClass) (p : Pseudo) : Master :=
  set_pseudo (fresh cls rm) p.

(** A second subclass declaring level 0. *)
Definition twin : MasterClass :=
  mkMasterClass "HintsTwin" 0 "hints_twin" HintsMaster.challenge HintsMaster.make_report.

(** A subclass whose verdict is false. *)
Definition strict : MasterClass :=
  mkMasterClass "Strict" 0 "strict" (fun _ _ => ret wres) (fun _ _ => ret (∅, false)).

End Sample.

(** ** The rest of the module *)

(** The table [_key2lev], filled by the loop over the subclasses at
    import time, and [dojo_key2level]. *)
Definition _key2lev (subclasses : list MasterClass) : gmap string Z :=
  foldl (fun d cls => <[dojo_key cls := dojo_level cls]> d) ∅ subclasses.

Definition dojo_key2level (subclasses : list MasterClass) (key : string) : result Z :=
  match _key2lev subclasses !! key with
  | Some level => Ok level
  | None => Raise (KeyError key)
  end.

(** The subclasses the module itself defines, in definition order. *)
Definition module_subclasses : list MasterClass :=
  [HintsMaster.cls; DeltaFactorMaster.cls].

(** The variants filing under a report key, in the order of the list. *)
Definition with_key (key : string) (l : list MasterClass) : list MasterClass :=
  List.filter (fun c => String.eqb (dojo_key c) key) l.

(** The lines [accept_pseudo] prints. *)
Definition sorry_line (c : MasterClass) (p : Pseudo) : string :=
  cls_name c +:+ ": Sorry, " +:+ name p +:+ "-san, I cannot train you".

Definition welcome_line (c : MasterClass) (p : Pseudo) : string :=
  cls_name c +:+ ": Welcome " +:+ name p +:+ "-san, I'm your level-"
    +:+ str_Z (dojo_level c) +:+ " trainer".

(** * Properties *)

Ltac run :=
  cbv [mbind M_bind bind mret M_ret ret lift raise result_bind result_ret].

(** ** Eligibility *)

Lemma accept_pseudo_run (m : Master) (p : Pseudo) (w : World) :
  ∃ line,
    accept_pseudo m (inr p) w =
      (Ok (ready_for (dojo_level (master_class m)) p,
           if ready_for (dojo_level (master_class m)) p then set_pseudo m p else m),
       set_stdout (stdout w ++ [line]) w).
Proof.
  unfold accept_pseudo, as_pseudo, ready_for. run.
  destruct (pseudo_dojo_level p) as [l|];
    [destruct (Z.eqb l _) | destruct (Z.eqb _ 0)]; simpl; eauto.
Qed.

(** C1. accept_pseudo returns true exactly when the pseudopotential has no
    level and the master is at level 0, or the pseudopotential's level is
    the master's level minus one; on true the pseudopotential becomes the
    instance's [pseudo] and nothing else of the instance changes; on false
    the instance is returned as it was. *)
Theorem accept_pseudo_spec (m : Master) (p : Pseudo) (w : World) :
  ∃ (ready : bool) (m' : Master) (w' : World),
    accept_pseudo m (inr p) w = (Ok (ready, m'), w') ∧
    (ready = true ↔
       (pseudo_dojo_level p = None ∧ dojo_level (master_class m) = 0) ∨
       pseudo_dojo_level p = Some (dojo_level (master_class m) - 1)) ∧
    (if ready then
       pseudo (self m') = Some p ∧ master_class m' = master_class m ∧
       runmode (self m') = runmode (self m) ∧ reports (self m') = reports (self m) ∧
       errors (self m') = errors (self m)
     else m' = m).
Proof.
  destruct (accept_pseudo_run m p w) as [line Hrun].
  eexists _, _, _. split; [exact Hrun|]. split.
  - unfold ready_for. destruct (pseudo_dojo_level p) as [l|].
    + rewrite Z.eqb_eq. split.
      * intros ->. by right.
      * intros [[? _]|[= ->]]; [done|reflexivity].
    + rewrite Z.eqb_eq. split; [by left|]. by intros [[_ ?]|?].
  - destruct (ready_for _ p); [|reflexivity]. by destruct m as [c [? ? ? ?]].
Qed.

(** ** Report merge *)

Lemma lookup_name_overwrite (overwrite_data ignore_errors : bool) :
  lookup_name [("overwrite_data", overwrite_data); ("ignore_errors", ignore_errors)]
              "overwrite" = Raise (NameError "overwrite").
Proof. reflexivity. Qed.

Lemma check_old_keys_overlap okeys report od ie k :
  k ∈ okeys → is_Some (report !! k) →
  check_old_keys okeys report od ie = Raise (NameError "overwrite").
Proof.
  intros Hin Hk. induction okeys as [|okey rest IH]; [by apply elem_of_nil in Hin|].
  cbn [check_old_keys]. rewrite lookup_name_overwrite. case_bool_decide as Hok.
  - reflexivity.
  - apply elem_of_cons in Hin as [->|Hin]; [done|]. cbn. by apply IH.
Qed.

Lemma check_old_keys_disjoint okeys report od ie :
  (∀ k, k ∈ okeys → report !! k = None) →
  check_old_keys okeys report od ie = Ok tt.
Proof.
  induction okeys as [|okey rest IH]; intros Hdis; [reflexivity|].
  cbn [check_old_keys]. rewrite bool_decide_eq_false_2.
  - cbn. apply IH. intros k Hk. apply Hdis. by right.
  - rewrite (Hdis okey); [by intros [? ?]|by left].
Qed.

Lemma elem_of_keys (m : gmap string pyval) (k : string) :
  k ∈ (map_to_list m).*1 ↔ is_Some (m !! k).
Proof.
  rewrite list_elem_of_fmap. split.
  - intros [[k' v] [-> Hin]]. apply elem_of_map_to_list in Hin. by exists v.
  - intros [v Hv]. exists (k, v). split; [done|]. by apply elem_of_map_to_list.
Qed.

Lemma write_dojo_report_overlap m p report od ie w k :
  pseudo (self m) = Some p →
  is_Some (persisted w p !! k) → is_Some (report !! k) →
  write_dojo_report m report od ie w = (Raise (NameError "overwrite"), w).
Proof.
  intros Hp Hold Hnew. unfold write_dojo_report, self_pseudo. rewrite Hp. run.
  unfold Pseudo_read_dojo_report. fold (persisted w p).
  rewrite (check_old_keys_overlap _ _ _ _ k); [reflexivity| |done].
  by apply elem_of_keys.
Qed.

(** C2. With the hints of Si persisted, writing a report that has the key
    "hints" again raises NameError for [overwrite] and leaves the
    persisted report as it was, whether overwrite_data is False or True:
    the parameter does not gate the check. *)
Theorem write_dojo_report_overwrite_data_unused :
  write_dojo_report (Sample.bound HintsMaster.cls Sample.si) Sample.hints false false
                    Sample.trained
    = (Raise (NameError "overwrite"), Sample.trained) ∧
  write_dojo_report (Sample.bound HintsMaster.cls Sample.si) Sample.hints true false
                    Sample.trained
    = (Raise (NameError "overwrite"), Sample.trained).
Proof.
  split; apply (write_dojo_report_overlap _ Sample.si _ _ _ _ "hints");
    try reflexivity; by eexists.
Qed.

(** C6. When no key of the new report is in the persisted one,
    write_dojo_report succeeds and the persisted report becomes the union
    of the old and the new entries; nothing else in the world changes. *)
Theorem write_dojo_report_disjoint m p report od ie w :
  pseudo (self m) = Some p →
  (∀ k, is_Some (persisted w p !! k) → report !! k = None) →
  ∃ w',
    write_dojo_report m report od ie w = (Ok tt, w') ∧
    w' = set_dojo_reports (<[name p := report ∪ persisted w p]> (dojo_reports w)) w ∧
    ∀ k v, persisted w' p !! k = Some v ↔
           persisted w p !! k = Some v ∨ report !! k = Some v.
Proof.
  intros Hp Hdis. eexists. split; [|split; [reflexivity|]].
  - unfold write_dojo_report, self_pseudo. rewrite Hp. run.
    unfold Pseudo_read_dojo_report. fold (persisted w p).
    rewrite check_old_keys_disjoint; [reflexivity|].
    intros k Hk. apply Hdis. by apply elem_of_keys.
  - intros k v. unfold persisted at 1. cbn. rewrite lookup_insert_eq. cbn.
    rewrite lookup_union_Some_raw. split.
    + intros [?|[_ ?]]; auto.
    + intros [Hold|Hnew]; [right|by left]. split; [|done].
      apply Hdis. by eexists.
Qed.

Lemma write_dojo_report_disjoint_witness :
  ∃ w',
    write_dojo_report (Sample.bound DeltaFactorMaster.cls Sample.si0) Sample.delta
                      false false Sample.trained = (Ok tt, w') ∧
    w' = set_dojo_reports (<[name Sample.si0 := Sample.delta ∪ persisted Sample.trained Sample.si0]>
                             (dojo_reports Sample.trained)) Sample.trained ∧
    ∀ k v, persisted w' Sample.si0 !! k = Some v ↔
           persisted Sample.trained Sample.si0 !! k = Some v ∨ Sample.delta !! k = Some v.
Proof.
  apply (write_dojo_report_disjoint (Sample.bound DeltaFactorMaster.cls Sample.si0)
           Sample.si0 Sample.delta false false Sample.trained).
  - reflexivity.
  - intros k [v Hv]. unfold Sample.delta. apply lookup_singleton_None.
    intros <-. vm_compute in Hv. discriminate Hv.
Defined.

(** ** One level of training *)

Lemma write_dojo_report_fs m report od ie w :
  fs (snd (write_dojo_report m report od ie w)) = fs w.
Proof.
  unfold write_dojo_report, self_pseudo. run.
  destruct (pseudo (self m)) as [p|]; [|reflexivity].
  unfold Pseudo_read_dojo_report.
  by destruct (check_old_keys _ report od ie).
Qed.

(** C4. Once challenge has returned results and make_report a pair
    (report, isok), start_training dumps the results at report.json under
    the working directory, whatever the verdict; it then goes on as
    write_dojo_report on the report when isok is true, and raises
    DojoError carrying the verdict, with the persisted reports untouched,
    when isok is false.  The dump is on disk at the end in both cases. *)
Theorem start_training_spec m workdir w results w1 report isok w2 :
  challenge (master_class m) (self m) workdir w = (Ok results, w1) →
  make_report (master_class m) (self m) results w1 = (Ok (report, isok), w2) →
  let path := os_path_join workdir "report.json" in
  let w3 := set_fs (<[path := PyDict results]> (fs w2)) w2 in
  start_training m workdir w =
    (if isok then write_dojo_report m report false false w3
     else (Raise (DojoError "isok: False"), w3)) ∧
  fs (snd (start_training m workdir w)) !! path = Some (PyDict results) ∧
  (isok = false → dojo_reports (snd (start_training m workdir w)) = dojo_reports w2).
Proof.
  intros Hch Hmk path w3.
  assert (Hrun : start_training m workdir w =
                 (if isok then write_dojo_report m report false false w3
                  else (Raise (DojoError "isok: False"), w3))).
  { unfold start_training. run. rewrite Hch, Hmk. cbn. by destruct isok. }
  rewrite Hrun. split; [reflexivity|]. split.
  - destruct isok; [rewrite write_dojo_report_fs|]; cbn; apply lookup_insert_eq.
  - by intros ->.
Qed.

(** ** HintsMaster.make_report *)

Lemma collect_three (results : gmap string pyval) vl vn vh :
  results !! "low" = Some vl → results !! "normal" = Some vn → results !! "high" = Some vh →
  <["high" := vh]> (<["normal" := vn]> (<["low" := vl]> ∅))
    = restrict ["low"; "normal"; "high"] results.
Proof.
  intros Hl Hn Hh. apply map_eq. intros k. apply option_eq. intros v.
  unfold restrict. rewrite map_lookup_filter_Some. cbn.
  rewrite !elem_of_cons, elem_of_nil.
  destruct (decide (k = "high")) as [->|?]; [rewrite lookup_insert_eq, Hh; naive_solver|].
  rewrite lookup_insert_ne by done.
  destruct (decide (k = "normal")) as [->|?]; [rewrite lookup_insert_eq, Hn; naive_solver|].
  rewrite lookup_insert_ne by done.
  destruct (decide (k = "low")) as [->|?]; [rewrite lookup_insert_eq, Hl; naive_solver|].
  rewrite lookup_insert_ne, lookup_empty by done. naive_solver.
Qed.

(** C5. With "low", "normal" and "high" all present, make_report returns
    the report {"hints": d} and the verdict true, where d is the input
    restricted to those three keys; otherwise it raises KeyError naming
    the first of the three that is absent.  The world is untouched. *)
Theorem HintsMaster_make_report_spec (inst : Instance) (results : gmap string pyval) (w : World) :
  HintsMaster.make_report inst results w =
    match results !! "low", results !! "normal", results !! "high" with
    | Some _, Some _, Some _ =>
        (Ok ({[ "hints" := PyDict (restrict ["low"; "normal"; "high"] results) ]}, true), w)
    | None, _, _ => (Raise (KeyError "low is missing in input results"), w)
    | Some _, None, _ => (Raise (KeyError "normal is missing in input results"), w)
    | Some _, Some _, None => (Raise (KeyError "high is missing in input results"), w)
    end ∧
  dom (restrict ["low"; "normal"; "high"] results) ⊆ {[ "low"; "normal"; "high" ]} ∧
  ∀ k, k ∈ ["low"; "normal"; "high"] →
       restrict ["low"; "normal"; "high"] results !! k = results !! k.
Proof.
  split; [|split].
  - unfold HintsMaster.make_report. run. cbn [HintsMaster.collect].
    destruct (results !! "low") as [vl|] eqn:Hl; [|reflexivity].
    destruct (results !! "normal") as [vn|] eqn:Hn; [|reflexivity].
    destruct (results !! "high") as [vh|] eqn:Hh; [|reflexivity].
    by rewrite (collect_three results vl vn vh).
  - intros k [v Hv]%elem_of_dom. unfold restrict in Hv.
    apply map_lookup_filter_Some in Hv as [_ Hk]. cbn in Hk. set_solver.
  - intros k Hk. apply option_eq. intros v. unfold restrict.
    rewrite map_lookup_filter_Some. naive_solver.
Qed.

(** ** The unbound names *)

(** C7. DeltaFactorMaster.challenge never reaches the factory: with a
    pseudopotential bound it raises NameError for [runmode], and the
    world, the log of calls on the works included, is as before. *)
Theorem DeltaFactorMaster_challenge_raises (inst : Instance) (workdir : string) (w : World) :
  DeltaFactorMaster.challenge inst workdir w =
    (Raise (match pseudo inst with
            | Some _ => NameError "runmode"
            | None => AttributeError "pseudo"
            end), w).
Proof.
  unfold DeltaFactorMaster.challenge, self_pseudo. run.
  by destruct (pseudo inst).
Qed.


(** C10. A master as the constructor leaves it has no [pseudo]:
    write_dojo_report, and challenge and start_training of both
    subclasses, raise AttributeError and leave the world as it was. *)
Theorem fresh_master_unbound (cls : MasterClass) (rm : RunMode) (workdir : string)
        (report : gmap string pyval) (od ie : bool) (w : World) :
  DojoMaster_init cls (Some rm) w = (Ok (fresh cls rm), w) ∧
  pseudo (self (fresh cls rm)) = None ∧
  write_dojo_report (fresh cls rm) report od ie w = (Raise (AttributeError "pseudo"), w) ∧
  challenge HintsMaster.cls (self (fresh HintsMaster.cls rm)) workdir w
    = (Raise (AttributeError "pseudo"), w) ∧
  start_training (fresh HintsMaster.cls rm) workdir w = (Raise (AttributeError "pseudo"), w) ∧
  challenge DeltaFactorMaster.cls (self (fresh DeltaFactorMaster.cls rm)) workdir w
    = (Raise (AttributeError "pseudo"), w) ∧
  start_training (fresh DeltaFactorMaster.cls rm) workdir w
    = (Raise (AttributeError "pseudo"), w).
Proof.
  repeat split; try reflexivity.
Qed.

Lemma start_training_spec_witness :
  let m := Sample.bound HintsMaster.cls Sample.si in
  let w2 := snd (HintsMaster.challenge (self m) "DOJO_Si" Sample.empty) in
  let w3 := set_fs (<["DOJO_Si/report.json" := PyDict Sample.wres]> (fs w2)) w2 in
  (challenge (master_class m) (self m) "DOJO_Si" Sample.empty = (Ok Sample.wres, w2) ∧
   make_report (master_class m) (self m) Sample.wres w2 = (Ok (Sample.hints, true), w2)) ∧
  start_training m "DOJO_Si" Sample.empty = write_dojo_report m Sample.hints false false w3 ∧
  fs (snd (start_training m "DOJO_Si" Sample.empty)) !! "DOJO_Si/report.json"
    = Some (PyDict Sample.wres).
Proof.
  intros m w2 w3.
  assert (H1 : challenge (master_class m) (self m) "DOJO_Si" Sample.empty
               = (Ok Sample.wres, w2)) by (vm_compute; reflexivity).
  assert (H2 : make_report (master_class m) (self m) Sample.wres w2
               = (Ok (Sample.hints, true), w2)) by (vm_compute; reflexivity).
  split; [by split|].
  destruct (start_training_spec m "DOJO_Si" Sample.empty Sample.wres w2 Sample.hints
              true w2 H1 H2) as (Hrun & Hfile & _).
  split; [exact Hrun|exact Hfile].
Defined.

(** ** Discovery and construction *)

Lemma insert_by_level_perm c l : Permutation (c :: l) (insert_by_level c l).
Proof.
  induction l as [|d rest IH]; cbn; [done|].
  destruct (Z.leb _ _); [done|]. by rewrite Permutation_swap, IH.
Qed.

Lemma sort_by_level_perm l : Permutation l (sort_by_level l).
Proof.
  induction l as [|c rest IH]; cbn; [done|].
  by rewrite <- insert_by_level_perm, <- IH.
Qed.

Lemma insert_by_level_sorted c l : ascending l → ascending (insert_by_level c l).
Proof.
  unfold ascending. induction 1 as [|d rest Hs IH Hd]; cbn.
  - by repeat constructor.
  - destruct (Z.leb_spec (dojo_level c) (dojo_level d)) as [Hle|Hlt].
    + repeat constructor; done.
    + constructor; [exact IH|].
      destruct Hd as [|e rest' He]; cbn.
      * constructor. lia.
      * destruct (Z.leb _ _); constructor; lia.
Qed.

Lemma sort_by_level_sorted l : ascending (sort_by_level l).
Proof.
  induction l as [|c rest IH]; cbn; [constructor|]. by apply insert_by_level_sorted.
Qed.

Lemma insert_by_level_stable level c l :
  at_level level (insert_by_level c l) = at_level level (c :: l).
Proof.
  unfold at_level. induction l as [|d rest IH]; [done|]. cbn [insert_by_level].
  destruct (Z.leb_spec (dojo_level c) (dojo_level d)) as [Hle|Hlt]; [done|].
  cbn [List.filter] in *. rewrite IH.
  destruct (Z.eqb_spec (dojo_level c) level), (Z.eqb_spec (dojo_level d) level);
    try done; lia.
Qed.

Lemma sort_by_level_stable level l :
  at_level level (sort_by_level l) = at_level level l.
Proof.
  induction l as [|c rest IH]; [done|]. cbn [sort_by_level].
  rewrite insert_by_level_stable. unfold at_level in *. cbn. by rewrite IH.
Qed.

(** C3, as the code has it.  Constructing the coordinator checks nothing:
    it succeeds for every discovery result and every cutoff, and without
    a cutoff it keeps every variant, those sharing a level included and
    in discovery order, sorted by level.  Only
    subclass_from_dojo_level looks at the number of variants of a level:
    it returns one exactly when a single variant declares the level and
    fails otherwise. *)
Theorem Dojo_init_checks_nothing (subclasses : list MasterClass) (max_level : option Z)
        (level : Z) :
  (∃ d, Dojo_init subclasses max_level = Ok d) ∧
  Dojo_init subclasses None = Ok (mkDojo (sort_by_level subclasses)) ∧
  Permutation subclasses (sort_by_level subclasses) ∧
  ascending (sort_by_level subclasses) ∧
  at_level level (sort_by_level subclasses) = at_level level subclasses ∧
  ((∃ c, subclass_from_dojo_level subclasses level = Ok c ∧ at_level level subclasses = [c])
   ↔ length (at_level level subclasses) = 1%nat) ∧
  ((∃ e, subclass_from_dojo_level subclasses level = Raise e)
   ↔ length (at_level level subclasses) ≠ 1%nat).
Proof.
  split; [destruct max_level; by eexists|]. split; [done|].
  split; [apply sort_by_level_perm|]. split; [apply sort_by_level_sorted|].
  split; [apply sort_by_level_stable|].
  unfold subclass_from_dojo_level. fold (at_level level subclasses).
  destruct (at_level level subclasses) as [|c [|c' rest]]; cbn; split; split;
    try done; try (by intros [? [? ?]]); try (by intros [? ?]); eauto.
Qed.

(** C3, as the specification has it, fails: two variants at level 0 and
    the coordinator is constructed all the same, with both of them. *)
Lemma Dojo_init_duplicate_levels :
  dojo_level HintsMaster.cls = dojo_level Sample.twin ∧
  Dojo_init [HintsMaster.cls; Sample.twin] None = Ok (mkDojo [HintsMaster.cls; Sample.twin]) ∧
  ¬ ∃ e, Dojo_init [HintsMaster.cls; Sample.twin] None = Raise e.
Proof.
  split; [reflexivity|]. split; [reflexivity|]. by intros [e He].
Qed.

(** ** The coordinator *)

Lemma build_masters_fresh classes rm w :
  build_masters classes (Some rm) w = (Ok (map (fun c => fresh c rm) classes), w).
Proof.
  induction classes as [|c rest IH]; [done|].
  cbn [build_masters]. run. unfold DojoMaster_init. run. by rewrite IH.
Qed.

Lemma foldl_level_step_raise p workdir e w masters :
  foldl (level_step p workdir) (Raise e, w) masters = (Raise e, w).
Proof. induction masters as [|m rest IH]; [done|]. exact IH. Qed.

Lemma train_all_foldl p workdir masters done w :
  foldl (level_step p workdir) (Ok done, w) masters =
    match train_all p workdir masters w with
    | (Ok ms, w') => (Ok (done ++ ms)%list, w')
    | (Raise e, w') => (Raise e, w')
    end.
Proof.
  revert done w. induction masters as [|m rest IH]; intros done w.
  - cbn. by rewrite app_nil_r.
  - cbn [foldl train_all]. unfold level_step at 2. run.
    destruct (accept_pseudo_run m p w) as [line ->].
    destruct (ready_for _ p).
    + destruct (start_training _ workdir _) as [[[]|e] w2].
      * rewrite IH. destruct (train_all p workdir rest w2) as [[ms|e] w3]; [|done].
        by rewrite <- app_assoc.
      * apply foldl_level_step_raise.
    + rewrite IH. destruct (train_all p workdir rest _) as [[ms|e] w3]; [|done].
      by rewrite <- app_assoc.
Qed.

Lemma train_all_classes p workdir masters w ms w' :
  train_all p workdir masters w = (Ok ms, w') →
  map master_class ms = map master_class masters.
Proof.
  revert w ms w'. induction masters as [|m rest IH]; intros w ms w'.
  - by intros [= <- _].
  - cbn [train_all]. run. destruct (accept_pseudo_run m p w) as [line ->].
    assert (Hcls : master_class (if ready_for (dojo_level (master_class m)) p
                                 then set_pseudo m p else m) = master_class m)
      by (by destruct (ready_for _ p)).
    destruct (ready_for _ p).
    + destruct (start_training _ workdir _) as [[[]|e] w2]; [|done].
      destruct (train_all p workdir rest w2) as [[ms'|e] w3] eqn:E; [|done].
      intros [= <- _]. cbn. by rewrite (IH _ _ _ E).
    + destruct (train_all p workdir rest _) as [[ms'|e] w3] eqn:E; [|done].
      intros [= <- _]. cbn. by rewrite (IH _ _ _ E).
Qed.

Lemma challenge_pseudo_classes classes p rm w ms w' :
  challenge_pseudo (mkDojo classes) (inr p) (Some rm) w = (Ok ms, w') →
  map master_class ms = classes.
Proof.
  unfold challenge_pseudo, as_pseudo. run. rewrite build_masters_fresh.
  cbn [master_classes]. intros H%train_all_classes. rewrite H.
  clear. induction classes as [|c rest IH]; [done|]. cbn. by rewrite IH.
Qed.

Lemma challenge_pseudo_foldl classes p rm w :
  challenge_pseudo (mkDojo classes) (inr p) (Some rm) w =
    foldl (level_step p ("DOJO_" +:+ name p)) (Ok [], w)
          (map (fun c => fresh c rm) classes).
Proof.
  rewrite train_all_foldl. unfold challenge_pseudo, as_pseudo. run.
  rewrite build_masters_fresh. cbn [master_classes].
  by destruct (train_all p _ _ w) as [[ms|e] w'].
Qed.

(** C8. With the two variants of levels 0 and 1 discovered, in either
    order, and max_level=0, the coordinator holds the level-0 class only
    and a run is the single step of that validator.  With no max_level
    the coordinator holds every discovered class, sorted by level; a run
    builds one instance per class in that order and then takes the
    levels in turn: accept_pseudo, then start_training when it returned
    true and nothing when it returned false.  A run that returns has gone
    through every discovered class, in ascending order. *)
Theorem challenge_pseudo_levels (c0 c1 : MasterClass) (subclasses discovered : list MasterClass)
        (p : Pseudo) (rm : RunMode) (w : World) :
  dojo_level c0 = 0 → dojo_level c1 = 1 → Permutation subclasses [c0; c1] →
  (Dojo_init subclasses (Some 0) = Ok (mkDojo [c0]) ∧
   build_masters [c0] (Some rm) w = (Ok [fresh c0 rm], w) ∧
   challenge_pseudo (mkDojo [c0]) (inr p) (Some rm) w =
     level_step p ("DOJO_" +:+ name p) (Ok [], w) (fresh c0 rm)) ∧
  (Dojo_init discovered None = Ok (mkDojo (sort_by_level discovered)) ∧
   Permutation discovered (sort_by_level discovered) ∧
   ascending (sort_by_level discovered) ∧
   build_masters (sort_by_level discovered) (Some rm) w =
     (Ok (map (fun c => fresh c rm) (sort_by_level discovered)), w) ∧
   challenge_pseudo (mkDojo (sort_by_level discovered)) (inr p) (Some rm) w =
     foldl (level_step p ("DOJO_" +:+ name p)) (Ok [], w)
           (map (fun c => fresh c rm) (sort_by_level discovered)) ∧
   ∀ ms w',
     challenge_pseudo (mkDojo (sort_by_level discovered)) (inr p) (Some rm) w = (Ok ms, w') →
     map master_class ms = sort_by_level discovered).
Proof.
  intros H0 H1 Hperm. split.
  - split; [|split; [apply build_masters_fresh|apply challenge_pseudo_foldl]].
    assert (Hsort : sort_by_level subclasses = [c0; c1]).
    { symmetry in Hperm. apply Permutation_length_2_inv in Hperm as [->| ->];
        cbn; rewrite H0, H1; reflexivity. }
    unfold Dojo_init. by rewrite Hsort.
  - split; [done|]. split; [apply sort_by_level_perm|].
    split; [apply sort_by_level_sorted|].
    split; [apply build_masters_fresh|].
    split; [apply challenge_pseudo_foldl|]. intros ms w'. apply challenge_pseudo_classes.
Qed.

Lemma challenge_pseudo_levels_witness :
  (dojo_level HintsMaster.cls = 0 ∧ dojo_level DeltaFactorMaster.cls = 1) ∧
  Dojo_init [DeltaFactorMaster.cls; HintsMaster.cls] (Some 0) = Ok (mkDojo [HintsMaster.cls]) ∧
  Dojo_init [DeltaFactorMaster.cls; HintsMaster.cls] None
    = Ok (mkDojo [HintsMaster.cls; DeltaFactorMaster.cls]) ∧
  challenge_pseudo (mkDojo [HintsMaster.cls]) (inr Sample.si) (Some Sample.rm) Sample.empty =
    level_step Sample.si "DOJO_Si" (Ok [], Sample.empty) (fresh HintsMaster.cls Sample.rm).
Proof.
  split; [by split|].
  destruct (challenge_pseudo_levels HintsMaster.cls DeltaFactorMaster.cls
              [DeltaFactorMaster.cls; HintsMaster.cls]
              [DeltaFactorMaster.cls; HintsMaster.cls]
              Sample.si Sample.rm Sample.empty eq_refl eq_refl (perm_swap _ _ []))
    as [(Hinit & _ & Hrun) (Hall & _)].
  split; [exact Hinit|]. split; [exact Hall|exact Hrun].
Defined.

(** ** Where the artifacts go *)

Lemma append_cons (x : ascii) (a b : string) : String x a +:+ b = String x (a +:+ b).
Proof. reflexivity. Qed.

Lemma append_assoc (a b c : string) : (a +:+ b) +:+ c = a +:+ (b +:+ c).
Proof.
  induction a as [|x a IH]; [reflexivity|]. by rewrite !append_cons, IH.
Qed.

Lemma prefix_append (a b c : string) :
  String.prefix (a +:+ b) (a +:+ c) = String.prefix b c.
Proof.
  induction a as [|x a IH]; [reflexivity|]. rewrite !append_cons.
  cbn [String.prefix]. destruct (ascii_dec x x); [exact IH|done].
Qed.

Lemma ends_with_sep_append (a t : string) :
  t ≠ "" → ends_with_sep (a +:+ t) = ends_with_sep t.
Proof.
  intros Ht. induction a as [|x a IH]; [reflexivity|]. rewrite append_cons.
  cbn [ends_with_sep]. destruct (a +:+ t) eqn:E; [|exact IH].
  destruct a; [done|discriminate E].
Qed.

Lemma eqb_append_nonempty (a t : string) : t ≠ "" → String.eqb (a +:+ t) "" = false.
Proof. intros Ht. destruct a; [|reflexivity]. by destruct t. Qed.

Lemma os_path_join_relative (a b : string) :
  starts_with_sep b = false → os_path_join a b = a +:+ sep_after a +:+ b.
Proof.
  intros Hb. unfold os_path_join, sep_after. rewrite Hb.
  by destruct (orb _ _).
Qed.

Lemma level0_dir (workdir : string) :
  ∃ t, os_path_join workdir "LEVEL_0" = workdir +:+ t ∧
       (t = sep_after workdir +:+ "LEVEL_0") ∧ t ≠ "" ∧ ends_with_sep t = false.
Proof.
  rewrite os_path_join_relative by done. eexists. split; [done|]. split; [done|].
  unfold sep_after. by destruct (orb _ _).
Qed.

Lemma inside_level0_results (workdir : string) :
  inside (os_path_join workdir "LEVEL_0")
         (os_path_join (os_path_join workdir "LEVEL_0") "dojo_results.json") = true.
Proof.
  destruct (level0_dir workdir) as (t & -> & _ & Ht & Hsep).
  unfold inside. rewrite ends_with_sep_append, Hsep by done.
  rewrite os_path_join_relative by done. unfold sep_after.
  rewrite eqb_append_nonempty, ends_with_sep_append, Hsep by done. cbn [orb].
  by rewrite prefix_append.
Qed.

Lemma outside_level0_report (workdir : string) :
  inside (os_path_join workdir "LEVEL_0") (os_path_join workdir "report.json") = false.
Proof.
  destruct (level0_dir workdir) as (t & -> & -> & Ht & Hsep).
  unfold inside. rewrite ends_with_sep_append, Hsep by done.
  rewrite os_path_join_relative by done.
  rewrite append_assoc, prefix_append.
  unfold sep_after. by destruct (orb _ _).
Qed.

Lemma HintsMaster_challenge_fs inst workdir w res w' :
  HintsMaster.challenge inst workdir w = (Ok res, w') →
  ∃ old, (old = fs w ∨ old = filter (fun kv => inside (os_path_join workdir "LEVEL_0") kv.1 = false) (fs w)) ∧
         fs w' = <[os_path_join (os_path_join workdir "LEVEL_0") "dojo_results.json"
                   := PyDict res]> old.
Proof.
  unfold HintsMaster.challenge.
  change (str_Z HintsMaster.dojo_level) with "0". change ("LEVEL_" +:+ "0") with "LEVEL_0".
  cbv [mbind M_bind bind mret M_ret ret lift raise self_pseudo work_for_pseudo log_work
       os_path_exists shutil_rmtree print work_start work_wait work_get_results work_move
       json_pretty_dump path_in_workdir work_workdir].
  destruct (pseudo inst) as [p|]; [|done].
  destruct (existsb _ _);
    destruct (ecut_of _ "low"); try done;
    destruct (ecut_of _ "high"); try done;
    intros [= <- <-]; eexists; (split; [|reflexivity]); auto.
Qed.

Lemma start_training_HintsMaster_fs m workdir w w' :
  master_class m = HintsMaster.cls →
  start_training m workdir w = (Ok tt, w') →
  ∃ res old,
    (old = fs w ∨ old = filter (fun kv => inside (os_path_join workdir "LEVEL_0") kv.1 = false) (fs w)) ∧
    fs w' = <[os_path_join workdir "report.json" := PyDict res]>
              (<[os_path_join (os_path_join workdir "LEVEL_0") "dojo_results.json"
                 := PyDict res]> old).
Proof.
  intros Hcls. unfold start_training. rewrite Hcls. run.
  cbn [challenge make_report HintsMaster.cls].
  destruct (HintsMaster.challenge (self m) workdir w) as [[res|e] w1] eqn:Hch; [|done].
  apply HintsMaster_challenge_fs in Hch as (old & Hold & Hfs).
  unfold HintsMaster.make_report. run.
  destruct (HintsMaster.collect _ res ∅) as [d|e]; [|done].
  cbn -[os_path_join]. intros Hw.
  exists res, old. split; [exact Hold|].
  assert (Hkeep := f_equal (fun r => fs (snd r)) Hw). cbv beta in Hkeep.
  rewrite write_dojo_report_fs in Hkeep. cbn [snd] in Hkeep.
  rewrite <- Hkeep. cbn [fs set_fs]. by rewrite Hfs.
Qed.

(** C9, as the code has it.  When the level-0 validator completes,
    dojo_results.json is on disk inside LEVEL_0 under the working
    directory, report.json is on disk in the working directory itself,
    which is outside LEVEL_0, and no other file has been written. *)
Theorem artifacts_location (m : Master) (workdir : string) (w w' : World) :
  master_class m = HintsMaster.cls →
  start_training m workdir w = (Ok tt, w') →
  let leveldir := os_path_join workdir ("LEVEL_" +:+ str_Z (dojo_level (master_class m))) in
  let results_path := os_path_join leveldir "dojo_results.json" in
  let report_path := os_path_join workdir "report.json" in
  is_Some (fs w' !! results_path) ∧ inside leveldir results_path = true ∧
  is_Some (fs w' !! report_path) ∧ inside leveldir report_path = false ∧
  ∀ path, path ≠ results_path → path ≠ report_path →
          fs w' !! path = None ∨ fs w' !! path = fs w !! path.
Proof.
  intros Hcls Hrun. rewrite Hcls.
  change (str_Z (dojo_level HintsMaster.cls)) with "0".
  change ("LEVEL_" +:+ "0") with "LEVEL_0". intros leveldir results_path report_path.
  destruct (start_training_HintsMaster_fs m workdir w w' Hcls Hrun)
    as (res & old & Hold & Hfs).
  pose proof (inside_level0_results workdir) as Hin.
  pose proof (outside_level0_report workdir) as Hout.
  fold leveldir in Hin, Hout. fold results_path in Hin. fold report_path in Hout.
  assert (Hne : report_path ≠ results_path) by (intros E; congruence).
  fold results_path report_path in Hfs.
  split; [|split; [exact Hin|split; [|split; [exact Hout|]]]].
  - rewrite Hfs, lookup_insert_ne, lookup_insert_eq by done. by eexists.
  - rewrite Hfs, lookup_insert_eq. by eexists.
  - intros path H1 H2. rewrite Hfs, !lookup_insert_ne by done.
    destruct Hold as [->| ->]; [by right|].
    destruct (filter _ (fs w) !! path) as [v|] eqn:E; [right|by left].
    apply map_lookup_filter_Some in E as [E _]. by rewrite E.
Qed.

Lemma artifacts_location_witness :
  let m := Sample.bound HintsMaster.cls Sample.si in
  let w' := snd (start_training m "DOJO_Si" Sample.empty) in
  start_training m "DOJO_Si" Sample.empty = (Ok tt, w') ∧
  is_Some (fs w' !! "DOJO_Si/LEVEL_0/dojo_results.json") ∧
  is_Some (fs w' !! "DOJO_Si/report.json") ∧
  inside "DOJO_Si/LEVEL_0" "DOJO_Si/report.json" = false.
Proof.
  intros m w'.
  assert (Hrun : start_training m "DOJO_Si" Sample.empty = (Ok tt, w'))
    by (vm_compute; reflexivity).
  split; [exact Hrun|].
  destruct (artifacts_location m "DOJO_Si" Sample.empty w' eq_refl Hrun)
    as (Hres & _ & Hrep & Hout & _).
  split; [exact Hres|]. split; [exact Hrep|exact Hout].
Defined.

(** C9, as the specification has it, fails: after the level-0 training of
    Si, report.json is DOJO_Si/report.json, which is not inside
    DOJO_Si/LEVEL_0, and LEVEL_0 holds no report.json. *)
Lemma report_json_outside_level_dir :
  let m := Sample.bound HintsMaster.cls Sample.si in
  let w' := snd (start_training m "DOJO_Si" Sample.empty) in
  fst (start_training m "DOJO_Si" Sample.empty) = Ok tt ∧
  fs w' !! "DOJO_Si/report.json" = Some (PyDict Sample.wres) ∧
  inside "DOJO_Si/LEVEL_0" "DOJO_Si/report.json" = false ∧
  fs w' !! "DOJO_Si/LEVEL_0/report.json" = None.
Proof.
  repeat split; vm_compute; reflexivity.
Qed.

(** * Further properties *)

(** ** The table from report keys to levels *)

Lemma _key2lev_snoc l c :
  _key2lev (l ++ [c]) = <[dojo_key c := dojo_level c]> (_key2lev l).
Proof. unfold _key2lev. by rewrite foldl_app. Qed.

Lemma with_key_snoc key l c :
  with_key key (l ++ [c]) =
    (with_key key l ++ if String.eqb (dojo_key c) key then [c] else [])%list.
Proof. unfold with_key. rewrite List.filter_app. cbn. by destruct (String.eqb _ _). Qed.

Lemma _key2lev_lookup l key :
  _key2lev l !! key = dojo_level <$> last (with_key key l).
Proof.
  induction l as [|c l IH] using rev_ind; [done|].
  rewrite _key2lev_snoc, with_key_snoc.
  destruct (String.eqb_spec (dojo_key c) key) as [->|Hne].
  - by rewrite lookup_insert_eq, last_snoc.
  - by rewrite lookup_insert_ne, app_nil_r.
Qed.

(** X1. dojo_key2level returns the level of the last subclass that files
    under the key, and raises KeyError naming the key when no subclass
    does. *)
Theorem dojo_key2level_last (subclasses : list MasterClass) (key : string) :
  dojo_key2level subclasses key =
    match last (with_key key subclasses) with
    | Some c => Ok (dojo_level c)
    | None => Raise (KeyError key)
    end.
Proof.
  unfold dojo_key2level. rewrite _key2lev_lookup.
  by destruct (last (with_key key subclasses)).
Qed.

Lemma with_key_absent key l : key ∉ dojo_key <$> l → with_key key l = [].
Proof.
  induction l as [|d l IH]; [done|]. intros Hnot.
  apply not_elem_of_cons in Hnot as [Hne Hnot]. unfold with_key in *. cbn.
  destruct (String.eqb_spec (dojo_key d) key) as [E|_]; [by destruct Hne|]. by apply IH.
Qed.

Lemma with_key_NoDup l c :
  NoDup (dojo_key <$> l) → c ∈ l → last (with_key (dojo_key c) l) = Some c.
Proof.
  induction l as [|d l IH]; intros Hnd Hin; [by apply elem_of_nil in Hin|].
  apply NoDup_cons in Hnd as [Hd Hnd].
  apply elem_of_cons in Hin as [->|Hin].
  - change (with_key (dojo_key d) (d :: l))
      with (if String.eqb (dojo_key d) (dojo_key d) then d :: with_key (dojo_key d) l
            else with_key (dojo_key d) l).
    by rewrite String.eqb_refl, with_key_absent.
  - change (with_key (dojo_key c) (d :: l))
      with (if String.eqb (dojo_key d) (dojo_key c) then d :: with_key (dojo_key c) l
            else with_key (dojo_key c) l).
    destruct (String.eqb_spec (dojo_key d) (dojo_key c)) as [E|_]; [|by apply IH].
    destruct Hd. rewrite E. by apply list_elem_of_fmap_2.
Qed.

(** X2. When the subclasses file under distinct keys, dojo_key2level
    takes the key of each of them back to its level. *)
Theorem dojo_key2level_dojo_key (subclasses : list MasterClass) (c : MasterClass) :
  NoDup (dojo_key <$> subclasses) → c ∈ subclasses →
  dojo_key2level subclasses (dojo_key c) = Ok (dojo_level c).
Proof.
  intros Hnd Hin. unfold dojo_key2level.
  by rewrite _key2lev_lookup, (with_key_NoDup _ _ Hnd Hin).
Qed.

Lemma dojo_key2level_dojo_key_witness :
  (NoDup (dojo_key <$> module_subclasses) ∧ DeltaFactorMaster.cls ∈ module_subclasses) ∧
  dojo_key2level module_subclasses "delta_factor" = Ok 1.
Proof.
  assert (Hnd : NoDup (dojo_key <$> module_subclasses)).
  { cbn. repeat constructor; [|by intros ?%elem_of_nil].
    rewrite list_elem_of_singleton. discriminate. }
  assert (Hin : DeltaFactorMaster.cls ∈ module_subclasses) by (right; left).
  split; [by split|].
  exact (dojo_key2level_dojo_key module_subclasses DeltaFactorMaster.cls Hnd Hin).
Defined.

(** ** The report merge, whatever the input *)

Lemma check_old_keys_flags okeys report od ie od' ie' :
  check_old_keys okeys report od ie = check_old_keys okeys report od' ie'.
Proof.
  induction okeys as [|okey rest IH]; [done|].
  cbn [check_old_keys]. rewrite !lookup_name_overwrite.
  case_bool_decide; [done|]. cbn. exact IH.
Qed.

Lemma check_old_keys_result okeys report od ie :
  (∀ k, k ∈ okeys → report !! k = None) ∨
  check_old_keys okeys report od ie = Raise (NameError "overwrite").
Proof.
  induction okeys as [|okey rest IH]; [left; by intros k ?%elem_of_nil|].
  cbn [check_old_keys]. rewrite lookup_name_overwrite. case_bool_decide as Hok.
  - by right.
  - destruct IH as [Hfree|Hraise]; [left|by right].
    intros k [->|Hk]%elem_of_cons; [|by apply Hfree].
    destruct (report !! okey) eqn:E; [|done]. destruct Hok. by eexists.
Qed.

(** X3. Neither overwrite_data nor ignore_errors has any influence on
    write_dojo_report: the outcome and the world are the same for every
    value of the two flags. *)
Theorem write_dojo_report_flags m report od ie od' ie' w :
  write_dojo_report m report od ie w = write_dojo_report m report od' ie' w.
Proof.
  unfold write_dojo_report. run. destruct (self_pseudo (self m) w) as [[p|e] w1]; [|done].
  destruct (Pseudo_read_dojo_report p w1) as [[old|e] w2]; [|done].
  by rewrite (check_old_keys_flags _ report od ie od' ie').
Qed.

Lemma write_dojo_report_cases m report od ie w :
  write_dojo_report m report od ie w =
    match pseudo (self m) with
    | None => (Raise (AttributeError "pseudo"), w)
    | Some p =>
        if decide (report ##ₘ persisted w p) then
          (Ok tt, set_dojo_reports (<[name p := report ∪ persisted w p]> (dojo_reports w)) w)
        else (Raise (NameError "overwrite"), w)
    end.
Proof.
  destruct (pseudo (self m)) as [p|] eqn:Hp.
  - case_decide as Hdis.
    + unfold write_dojo_report, self_pseudo. rewrite Hp. run.
      unfold Pseudo_read_dojo_report. fold (persisted w p).
      rewrite check_old_keys_disjoint; [reflexivity|].
      intros k [v Hv]%elem_of_keys. by eapply map_disjoint_Some_r.
    + unfold write_dojo_report, self_pseudo. rewrite Hp. run.
      unfold Pseudo_read_dojo_report. fold (persisted w p).
      destruct (check_old_keys_result (map_to_list (persisted w p)).*1 report od ie)
        as [Hfree| ->]; [|reflexivity].
      destruct Hdis. apply map_disjoint_spec. intros k x y Hx Hy.
      assert (Hk : k ∈ (map_to_list (persisted w p)).*1) by (apply elem_of_keys; by eexists).
      apply Hfree in Hk. congruence.
  - unfold write_dojo_report, self_pseudo. rewrite Hp. by run.
Qed.

(** X4. write_dojo_report is all or nothing.  Without a bound
    pseudopotential it raises AttributeError; with one whose persisted
    report shares a key with the new report it raises NameError; in both
    cases the world is as before.  Otherwise it succeeds, and the only
    change in the world is that the bound pseudopotential's persisted
    report is the new report merged over the old one. *)
Theorem write_dojo_report_outcome m report od ie w :
  write_dojo_report m report od ie w =
    match pseudo (self m) with
    | None => (Raise (AttributeError "pseudo"), w)
    | Some p =>
        if decide (report ##ₘ persisted w p) then
          (Ok tt, set_dojo_reports (<[name p := report ∪ persisted w p]> (dojo_reports w)) w)
        else (Raise (NameError "overwrite"), w)
    end.
Proof. apply write_dojo_report_cases. Qed.

(** ** Eligibility, again *)

(** X5. accept_pseudo is idempotent: asked again about the same
    pseudopotential, a master gives the same verdict and stays as the
    first call left it; each call prints one line and changes nothing
    else in the world. *)
Theorem accept_pseudo_idempotent m p w ready m1 w1 :
  accept_pseudo m (inr p) w = (Ok (ready, m1), w1) →
  ∃ line1 line2,
    w1 = set_stdout (stdout w ++ [line1]) w ∧
    accept_pseudo m1 (inr p) w1 = (Ok (ready, m1), set_stdout (stdout w1 ++ [line2]) w1).
Proof.
  destruct (accept_pseudo_run m p w) as [line1 Hrun]. rewrite Hrun. intros [= <- <- <-].
  set (m1 := if ready_for _ p then set_pseudo m p else m).
  assert (Hcls : master_class m1 = master_class m) by (subst m1; by destruct (ready_for _ p)).
  destruct (accept_pseudo_run m1 p (set_stdout (stdout w ++ [line1]) w)) as [line2 Hrun2].
  exists line1, line2. split; [done|]. rewrite Hrun2, Hcls.
  subst m1. by destruct (ready_for _ p).
Qed.

Lemma accept_pseudo_idempotent_witness :
  ∃ line1 line2,
    snd (accept_pseudo (fresh HintsMaster.cls Sample.rm) (inr Sample.si) Sample.empty)
      = set_stdout (stdout Sample.empty ++ [line1]) Sample.empty ∧
    accept_pseudo (Sample.bound HintsMaster.cls Sample.si) (inr Sample.si)
                  (snd (accept_pseudo (fresh HintsMaster.cls Sample.rm) (inr Sample.si)
                                      Sample.empty))
      = (Ok (true, Sample.bound HintsMaster.cls Sample.si),
         set_stdout (stdout (snd (accept_pseudo (fresh HintsMaster.cls Sample.rm)
                                                (inr Sample.si) Sample.empty)) ++ [line2])
                    (snd (accept_pseudo (fresh HintsMaster.cls Sample.rm) (inr Sample.si)
                                        Sample.empty))).
Proof.
  exact (accept_pseudo_idempotent (fresh HintsMaster.cls Sample.rm) Sample.si Sample.empty
           true (Sample.bound HintsMaster.cls Sample.si)
           (snd (accept_pseudo (fresh HintsMaster.cls Sample.rm) (inr Sample.si) Sample.empty))
           eq_refl).
Defined.

(** ** The cutoff of the coordinator *)

(** X6. With a cutoff, the coordinator holds a prefix of the classes in
    level order.  A cutoff of at least -1 keeps max_level+1 classes, or
    all of them when there are fewer; a lower one drops classes from the
    end instead, as a negative slice bound does. *)
Theorem Dojo_init_cutoff (subclasses : list MasterClass) (max_level : Z) :
  ∃ d, Dojo_init subclasses (Some max_level) = Ok d ∧
       master_classes d `prefix_of` sort_by_level subclasses ∧
       Z.of_nat (length (master_classes d)) =
         if Z.ltb (max_level + 1) 0
         then Z.max 0 (Z.of_nat (length subclasses) + (max_level + 1))
         else Z.min (max_level + 1) (Z.of_nat (length subclasses)).
Proof.
  eexists. split; [reflexivity|]. cbn [master_classes]. unfold slice_to.
  rewrite (Permutation_length (sort_by_level_perm subclasses)).
  destruct (Z.ltb_spec (max_level + 1) 0); (split; [apply prefix_take|]);
    rewrite length_take; lia.
Qed.

(** X7. When the classes in level order declare the levels 0, 1, 2, ...,
    one each, a cutoff max_level >= 0 keeps exactly the discovered
    classes whose level is at most max_level. *)
Theorem Dojo_init_cutoff_by_level (subclasses : list MasterClass) (max_level : Z)
        (c : MasterClass) :
  (∀ i c, sort_by_level subclasses !! i = Some c → dojo_level c = Z.of_nat i) →
  0 <= max_level →
  ∃ d, Dojo_init subclasses (Some max_level) = Ok d ∧
       (c ∈ master_classes d ↔ c ∈ subclasses ∧ dojo_level c <= max_level).
Proof.
  intros Hpos Hmax. eexists. split; [reflexivity|]. cbn [master_classes].
  unfold slice_to. destruct (Z.ltb_spec (max_level + 1) 0); [lia|].
  rewrite elem_of_take, (sort_by_level_perm subclasses). split.
  - intros (i & Hi & Hlt). split; [by eapply list_elem_of_lookup_2|].
    rewrite (Hpos i c Hi). lia.
  - intros [(i & Hi)%list_elem_of_lookup_1 Hle]. exists i. split; [done|].
    rewrite (Hpos i c Hi) in Hle. lia.
Qed.

Lemma Dojo_init_cutoff_by_level_witness :
  ((∀ i c, sort_by_level [DeltaFactorMaster.cls; HintsMaster.cls] !! i = Some c →
           dojo_level c = Z.of_nat i) ∧ 0 <= 0) ∧
  ∃ d, Dojo_init [DeltaFactorMaster.cls; HintsMaster.cls] (Some 0) = Ok d ∧
       (DeltaFactorMaster.cls ∈ master_classes d ↔
        DeltaFactorMaster.cls ∈ [DeltaFactorMaster.cls; HintsMaster.cls] ∧
        dojo_level DeltaFactorMaster.cls <= 0).
Proof.
  assert (Hpos : ∀ i c, sort_by_level [DeltaFactorMaster.cls; HintsMaster.cls] !! i = Some c →
                        dojo_level c = Z.of_nat i).
  { intros [|[|i]] c; cbn; intros [= <-]; reflexivity. }
  assert (Hmax : 0 <= 0) by reflexivity.
  split; [by split|].
  exact (Dojo_init_cutoff_by_level [DeltaFactorMaster.cls; HintsMaster.cls] 0
           DeltaFactorMaster.cls Hpos Hmax).
Defined.

(** ** Lookup of a variant *)

(** X8. What subclass_from_dojo_level returns is a discovered class
    declaring the level asked for; when it fails, the exception is the
    NameError for [self], never the DojoError its message was written
    for. *)
Theorem subclass_from_dojo_level_outcome (subclasses : list MasterClass) (level : Z) :
  match subclass_from_dojo_level subclasses level with
  | Ok c => c ∈ subclasses ∧ dojo_level c = level
  | Raise e => e = NameError "self"
  end.
Proof.
  unfold subclass_from_dojo_level.
  destruct (List.filter _ subclasses) as [|c [|c' rest]] eqn:E; [done| |done].
  assert (Hin : In c (List.filter (fun c => Z.eqb (dojo_level c) level) subclasses))
    by (rewrite E; by left).
  apply List.filter_In in Hin as [Hin Hlevel]. split.
  - by apply list_elem_of_In.
  - by apply Z.eqb_eq.
Qed.

(** ** Runs of the coordinator *)

(** X9. Without a run mode no master can be built: unless the
    coordinator holds no class at all, challenge_pseudo raises NameError
    for RunMode before anything is printed, run or written. *)
Theorem challenge_pseudo_without_runmode (d : Dojo) (p : Pseudo) (w : World) :
  challenge_pseudo d (inr p) None w =
    match master_classes d with
    | [] => (Ok [], w)
    | _ :: _ => (Raise (NameError "RunMode"), w)
    end.
Proof.
  unfold challenge_pseudo, as_pseudo. run. by destruct (master_classes d).
Qed.

Lemma accept_pseudo_lines (m : Master) (p : Pseudo) (w : World) :
  accept_pseudo m (inr p) w =
    (Ok (ready_for (dojo_level (master_class m)) p,
         if ready_for (dojo_level (master_class m)) p then set_pseudo m p else m),
     set_stdout (stdout w ++ [if ready_for (dojo_level (master_class m)) p
                              then welcome_line (master_class m) p
                              else sorry_line (master_class m) p]) w).
Proof.
  unfold accept_pseudo, as_pseudo, ready_for, welcome_line, sorry_line. run.
  destruct (pseudo_dojo_level p) as [l|];
    [destruct (Z.eqb l _) | destruct (Z.eqb _ 0)]; reflexivity.
Qed.

Lemma train_all_rejecting p workdir rm (pre : list MasterClass) (rest : list Master) w :
  (∀ c, c ∈ pre → ready_for (dojo_level c) p = false) →
  train_all p workdir (((fun c => fresh c rm) <$> pre) ++ rest)%list w =
    match train_all p workdir rest
                    (set_stdout (stdout w ++ ((fun c => sorry_line c p) <$> pre)) w) with
    | (Ok ms, w') => (Ok (((fun c => fresh c rm) <$> pre) ++ ms)%list, w')
    | (Raise e, w') => (Raise e, w')
    end.
Proof.
  revert w. induction pre as [|c pre IH]; intros w Hrej.
  - cbn. rewrite app_nil_r.
    replace (set_stdout (stdout w) w) with w by (by destruct w).
    by destruct (train_all p workdir rest w) as [[ms|e] w'].
  - cbn [fmap list_fmap app train_all]. run. rewrite accept_pseudo_lines.
    cbn [master_class fresh]. rewrite (Hrej c) by (by left).
    rewrite IH by (intros c' Hc'; apply Hrej; by right).
    cbn [stdout set_stdout]. rewrite <- app_assoc.
    by destruct (train_all p workdir rest _) as [[ms|e] w'].
Qed.

Lemma build_masters_fmap classes rm w :
  build_masters classes (Some rm) w = (Ok ((fun c => fresh c rm) <$> classes), w).
Proof.
  induction classes as [|c rest IH]; [done|].
  cbn [build_masters]. run. unfold DojoMaster_init. run. by rewrite IH.
Qed.

(** X10. When no class of the coordinator is at the level that follows
    the pseudopotential's, the run trains nothing: it returns the
    instances as they were built, none bound, and its only effect is one
    line of regret per class, in level order. *)
Theorem challenge_pseudo_nobody_ready (classes : list MasterClass) (p : Pseudo)
        (rm : RunMode) (w : World) :
  (∀ c, c ∈ classes → ready_for (dojo_level c) p = false) →
  challenge_pseudo (mkDojo classes) (inr p) (Some rm) w =
    (Ok ((fun c => fresh c rm) <$> classes),
     set_stdout (stdout w ++ ((fun c => sorry_line c p) <$> classes)) w).
Proof.
  intros Hrej. unfold challenge_pseudo, as_pseudo. run.
  rewrite build_masters_fmap. cbn [master_classes].
  pose proof (train_all_rejecting p ("DOJO_" +:+ name p) rm classes [] w Hrej) as H.
  rewrite !app_nil_r in H. rewrite H. cbn. by rewrite app_nil_r.
Qed.

Lemma challenge_pseudo_nobody_ready_witness :
  (∀ c, c ∈ module_subclasses → ready_for (dojo_level c) (mkPseudo "Si" (Some 1)) = false) ∧
  challenge_pseudo (mkDojo module_subclasses) (inr (mkPseudo "Si" (Some 1)))
                   (Some Sample.rm) Sample.empty =
    (Ok ((fun c => fresh c Sample.rm) <$> module_subclasses),
     set_stdout (stdout Sample.empty ++
                   ((fun c => sorry_line c (mkPseudo "Si" (Some 1))) <$> module_subclasses))
                Sample.empty).
Proof.
  assert (Hrej : ∀ c, c ∈ module_subclasses →
                      ready_for (dojo_level c) (mkPseudo "Si" (Some 1)) = false).
  { intros c [->|[->|[]%elem_of_nil]%elem_of_cons]%elem_of_cons; reflexivity. }
  split; [exact Hrej|].
  exact (challenge_pseudo_nobody_ready module_subclasses (mkPseudo "Si" (Some 1))
           Sample.rm Sample.empty Hrej).
Defined.

Lemma challenge_pseudo_aborts_at (pre post : list MasterClass) (c : MasterClass)
        (p : Pseudo) (rm : RunMode) (w w' : World) (e : exn) :
  (∀ c', c' ∈ pre → ready_for (dojo_level c') p = false) →
  ready_for (dojo_level c) p = true →
  start_training (set_pseudo (fresh c rm) p) ("DOJO_" +:+ name p)
    (set_stdout (stdout w ++ ((fun c' => sorry_line c' p) <$> pre) ++ [welcome_line c p]) w)
    = (Raise e, w') →
  challenge_pseudo (mkDojo (pre ++ c :: post)) (inr p) (Some rm) w = (Raise e, w').
Proof.
  intros Hrej Hready Hraise. unfold challenge_pseudo, as_pseudo. run.
  rewrite build_masters_fmap. cbn [master_classes]. rewrite fmap_app.
  rewrite train_all_rejecting by done.
  cbn [fmap list_fmap train_all]. run. rewrite accept_pseudo_lines.
  cbn [master_class fresh]. rewrite Hready. cbn [stdout set_stdout].
  rewrite <- app_assoc.
  change (set_pseudo {| master_class := c; self := mkInstance rm [] [] None |} p)
    with (set_pseudo (fresh c rm) p).
  replace (set_stdout (stdout w ++ ((fun c' => sorry_line c' p) <$> pre) ++ [welcome_line c p])
             (set_stdout (stdout w ++ ((fun c' => sorry_line c' p) <$> pre)) w))
    with (set_stdout (stdout w ++ ((fun c' => sorry_line c' p) <$> pre) ++ [welcome_line c p]) w)
    by reflexivity.
  by rewrite Hraise.
Qed.

(** X11. A level that raises ends the run.  When the classes before
    class c all turn the pseudopotential down, c accepts it and its
    training raises, challenge_pseudo raises the same exception with the
    world as that training left it, whatever classes come after c. *)
Theorem challenge_pseudo_aborts (pre post : list MasterClass) (c : MasterClass)
        (p : Pseudo) (rm : RunMode) (w w' : World) (e : exn) :
  (∀ c', c' ∈ pre → ready_for (dojo_level c') p = false) →
  ready_for (dojo_level c) p = true →
  start_training (set_pseudo (fresh c rm) p) ("DOJO_" +:+ name p)
    (set_stdout (stdout w ++ ((fun c' => sorry_line c' p) <$> pre) ++ [welcome_line c p]) w)
    = (Raise e, w') →
  challenge_pseudo (mkDojo (pre ++ c :: post)) (inr p) (Some rm) w = (Raise e, w').
Proof. apply challenge_pseudo_aborts_at. Qed.

Lemma DeltaFactorMaster_training_raises (m : Master) (p : Pseudo) (workdir : string) (w : World) :
  master_class m = DeltaFactorMaster.cls → pseudo (self m) = Some p →
  start_training m workdir w = (Raise (NameError "runmode"), w).
Proof.
  intros Hcls Hp. unfold start_training. rewrite Hcls. run.
  cbn [challenge DeltaFactorMaster.cls]. unfold DeltaFactorMaster.challenge, self_pseudo.
  run. by rewrite Hp.
Qed.

Lemma challenge_pseudo_aborts_witness :
  ((∀ c', c' ∈ [HintsMaster.cls] → ready_for (dojo_level c') Sample.si0 = false) ∧
   ready_for (dojo_level DeltaFactorMaster.cls) Sample.si0 = true) ∧
  challenge_pseudo (mkDojo ([HintsMaster.cls] ++ DeltaFactorMaster.cls :: []))
                   (inr Sample.si0) (Some Sample.rm) Sample.empty
    = (Raise (NameError "runmode"),
       set_stdout (stdout Sample.empty
                     ++ ((fun c' => sorry_line c' Sample.si0) <$> [HintsMaster.cls])
                     ++ [welcome_line DeltaFactorMaster.cls Sample.si0]) Sample.empty).
Proof.
  assert (Hrej : ∀ c', c' ∈ [HintsMaster.cls] →
                       ready_for (dojo_level c') Sample.si0 = false).
  { intros c' [->|[]%elem_of_nil]%elem_of_cons. reflexivity. }
  split; [by split|].
  exact (challenge_pseudo_aborts [HintsMaster.cls] [] DeltaFactorMaster.cls Sample.si0
           Sample.rm Sample.empty _ (NameError "runmode") Hrej eq_refl
           (DeltaFactorMaster_training_raises
              (set_pseudo (fresh DeltaFactorMaster.cls Sample.rm) Sample.si0) Sample.si0
              _ _ eq_refl eq_refl)).
Defined.

(** X12. With the two validators of the module, a pseudopotential at
    level 0 cannot be taken further: HintsMaster turns it down,
    DeltaFactorMaster welcomes it, and the run then raises NameError for
    [runmode], having done nothing but print those two lines. *)
Theorem module_run_at_level_0 (p : Pseudo) (rm : RunMode) (w : World) :
  pseudo_dojo_level p = Some 0 →
  Dojo_init module_subclasses None = Ok (mkDojo module_subclasses) ∧
  challenge_pseudo (mkDojo module_subclasses) (inr p) (Some rm) w =
    (Raise (NameError "runmode"),
     set_stdout (stdout w ++ [sorry_line HintsMaster.cls p;
                              welcome_line DeltaFactorMaster.cls p]) w).
Proof.
  intros Hlevel. split; [reflexivity|].
  apply (challenge_pseudo_aborts_at [HintsMaster.cls] [] DeltaFactorMaster.cls).
  - intros c' [->|[]%elem_of_nil]%elem_of_cons. unfold ready_for. by rewrite Hlevel.
  - unfold ready_for. by rewrite Hlevel.
  - by apply (DeltaFactorMaster_training_raises _ p).
Qed.

Lemma module_run_at_level_0_witness :
  pseudo_dojo_level Sample.si0 = Some 0 ∧
  challenge_pseudo (mkDojo module_subclasses) (inr Sample.si0) (Some Sample.rm) Sample.empty =
    (Raise (NameError "runmode"),
     set_stdout (stdout Sample.empty ++ [sorry_line HintsMaster.cls Sample.si0;
                                         welcome_line DeltaFactorMaster.cls Sample.si0])
                Sample.empty).
Proof.
  split; [reflexivity|].
  exact (proj2 (module_run_at_level_0 Sample.si0 Sample.rm Sample.empty eq_refl)).
Defined.

(** ** The two scans of HintsMaster *)







(** ** A whole level of HintsMaster *)

Lemma collect_three_keys (results : gmap string pyval) (d : gmap string pyval) :
  HintsMaster.collect ["low"; "normal"; "high"] results ∅ = Ok d →
  d = restrict ["low"; "normal"; "high"] results ∧
  ∀ k, k ∈ ["low"; "normal"; "high"] → is_Some (results !! k).
Proof.
  cbn [HintsMaster.collect].
  destruct (results !! "low") as [vl|] eqn:Hl; [|done].
  destruct (results !! "normal") as [vn|] eqn:Hn; [|done].
  destruct (results !! "high") as [vh|] eqn:Hh; [|done].
  intros [= <-]. split; [by apply collect_three|].
  intros k. rewrite !elem_of_cons, elem_of_nil. intros [->|[->|[->|[]]]]; by eexists.
Qed.



Lemma collect_three_raises (results : gmap string pyval) (e : exn) :
  HintsMaster.collect ["low"; "normal"; "high"] results ∅ = Raise e →
  ∃ k, k ∈ ["low"; "normal"; "high"] ∧ results !! k = None ∧
       e = KeyError (k +:+ " is missing in input results").
Proof.
  cbn [HintsMaster.collect].
  destruct (results !! "low") eqn:Hl;
    [|intros [= <-]; exists "low"; by repeat split; try set_solver].
  destruct (results !! "normal") eqn:Hn;
    [|intros [= <-]; exists "normal"; by repeat split; try set_solver].
  destruct (results !! "high") eqn:Hh;
    [done|intros [= <-]; exists "high"; by repeat split; try set_solver].
Qed.

(** X16. When the results HintsMaster.challenge returns lack one of
    "low", "normal", "high", the level raises KeyError and the world is
    exactly as challenge left it: report.json is not dumped and nothing
    is persisted. *)
Theorem HintsMaster_training_missing_key (m : Master) (workdir : string) (w w1 : World)
        (res : gmap string pyval) (k : string) :
  master_class m = HintsMaster.cls →
  HintsMaster.challenge (self m) workdir w = (Ok res, w1) →
  k ∈ ["low"; "normal"; "high"] → res !! k = None →
  ∃ k', k' ∈ ["low"; "normal"; "high"] ∧ res !! k' = None ∧
        start_training m workdir w =
          (Raise (KeyError (k' +:+ " is missing in input results")), w1).
Proof.
  intros Hcls Hch Hk Hnone. unfold start_training. rewrite Hcls. run.
  cbn [challenge make_report HintsMaster.cls]. rewrite Hch.
  unfold HintsMaster.make_report. run.
  destruct (HintsMaster.collect _ res ∅) as [d|e] eqn:Hd.
  - apply collect_three_keys in Hd as [_ Hkeys]. destruct (Hkeys k Hk) as [v Hv]. congruence.
  - apply collect_three_raises in Hd as (k' & Hk' & Hnone' & ->). by exists k'.
Qed.

Lemma HintsMaster_training_missing_key_witness :
  let m := Sample.bound HintsMaster.cls Sample.si in
  let res : gmap string pyval := delete "normal" Sample.wres in
  let first := ConvergenceWork "DOJO_Si/LEVEL_0" Sample.si (ESlice 5 None 10) Sample.rm
                               ["10"; "1"; "0.1"] in
  let w := mkWorld ∅ ∅ [] [] ∅
             (fun spec => match spec with
                          | ConvergenceWork _ _ (ESlice _ _ _) _ _ => Sample.wres
                          | _ => res
                          end) in
  let w1 := snd (HintsMaster.challenge (self m) "DOJO_Si" w) in
  (HintsMaster.challenge (self m) "DOJO_Si" w = (Ok res, w1) ∧ res !! "normal" = None) ∧
  ∃ k', k' ∈ ["low"; "normal"; "high"] ∧ res !! k' = None ∧
        start_training m "DOJO_Si" w =
          (Raise (KeyError (k' +:+ " is missing in input results")), w1).
Proof.
  intros m res first w w1.
  assert (Hch : HintsMaster.challenge (self m) "DOJO_Si" w = (Ok res, w1))
    by (vm_compute; reflexivity).
  assert (Hnone : res !! "normal" = None) by (vm_compute; reflexivity).
  assert (Hk : "normal" ∈ ["low"; "normal"; "high"]) by (right; left).
  split; [by split|].
  exact (HintsMaster_training_missing_key m "DOJO_Si" w w1 res "normal" eq_refl Hch Hk Hnone).
Defined.

(** ** What the module's validators never do *)


(** X17. For both validators of the module, make_report gives the
    verdict true, a report whose only key is the validator's dojo_key,
    and leaves the world alone; and dojo_key2level takes that key back to
    the validator's level. *)
Theorem module_make_report (c : MasterClass) (inst : Instance) (res report : gmap string pyval)
        (isok : bool) (w w' : World) :
  c ∈ module_subclasses →
  make_report c inst res w = (Ok (report, isok), w') →
  isok = true ∧ w' = w ∧ dom report = {[ dojo_key c ]} ∧
  dojo_key2level module_subclasses (dojo_key c) = Ok (dojo_level c).
Proof.
  intros [->|[->|[]%elem_of_nil]%elem_of_cons]%elem_of_cons;
    cbn [make_report HintsMaster.cls DeltaFactorMaster.cls dojo_key dojo_level].
  - unfold HintsMaster.make_report. run.
    destruct (HintsMaster.collect _ res ∅) as [d|e]; [|done].
    intros [= <- <- <-]. by rewrite dom_singleton_L.
  - unfold DeltaFactorMaster.make_report. run.
    intros [= <- <- <-]. by rewrite dom_singleton_L.
Qed.

Lemma module_make_report_witness :
  HintsMaster.cls ∈ module_subclasses ∧
  make_report HintsMaster.cls (self (fresh HintsMaster.cls Sample.rm)) Sample.wres Sample.empty
    = (Ok (Sample.hints, true), Sample.empty) ∧
  dom Sample.hints = {[ dojo_key HintsMaster.cls ]} ∧
  dojo_key2level module_subclasses (dojo_key HintsMaster.cls) = Ok (dojo_level HintsMaster.cls).
Proof.
  assert (Hin : HintsMaster.cls ∈ module_subclasses) by left.
  assert (Hrun : make_report HintsMaster.cls (self (fresh HintsMaster.cls Sample.rm))
                             Sample.wres Sample.empty
                 = (Ok (Sample.hints, true), Sample.empty)) by (vm_compute; reflexivity).
  destruct (module_make_report HintsMaster.cls _ Sample.wres Sample.hints true
              Sample.empty Sample.empty Hin Hrun) as (_ & _ & Hdom & Hlevel).
  by repeat split.
Defined.


